(** * ANT+ Stride Based Speed and Distance Monitor: the page decoder

    A shallow embedding of [ant/plus/stride.py].  The [Stride] object is a
    record of optional integers, a frame is a list of bytes, and the methods
    run in a small monad that threads the object, records what the method
    does to the outside world (lock operations, attribute reads and writes,
    prints, calls to the collaborators) and may raise a Python exception. *)

From Stdlib Require Import ZArith String List Lia Bool.
From Stdlib.Strings Require Import Byte.
Import ListNotations.
Open Scope Z_scope.

(** ** Bytes *)

(** The integer a [bytearray] element reads as. *)
Definition byte_val (b : byte) : Z := Z.of_N (Byte.to_N b).

(** The byte holding [z mod 256]. *)
Definition byte_of_Z (z : Z) : byte :=
  match Byte.of_N (Z.to_N (z mod 256)) with
  | Some b => b
  | None => x00
  end.

(** ** The object *)

Record Stride := mkStride {
  _detected_device : option (Z * Z);
  _stride_count : option Z;
  _calories : option Z;
  _hw_revision : option Z;
  _manufacturer_id : option Z;
  _model_number : option Z;
  _sw_revision : option Z;
  _serial_number : option Z
}.

Inductive field :=
| DetectedDevice | StrideCount | Calories | HwRevision
| ManufacturerId | ModelNumber | SwRevision | SerialNumber.

(** ** Effects *)

Inductive exn := IndexError | StructError.

Inductive event :=
| EvAcquire
| EvRelease
| EvRead (f : field)
| EvWrite (f : field)
| EvPrint (line : string)
| EvOpenChannel (frequency period transmission_type device_type device_id
                 search_timeout : Z)
| EvDeviceFound (device_number transmission_type : Z)
| EvStrideData (num_steps distance_m : Z).

Inductive result (A : Type) :=
| Ok (a : A)
| Raise (e : exn).
Arguments Ok {A} a.
Arguments Raise {A} e.

(** A method body: from the object to a result, the object afterwards and
    the events of the run, oldest first. *)
Definition M (A : Type) : Type := Stride -> result A * Stride * list event.

Definition ret {A} (a : A) : M A := fun s => (Ok a, s, []).

Definition raise {A} (e : exn) : M A := fun s => (Raise e, s, []).

Definition bind {A B} (m : M A) (f : A -> M B) : M B :=
  fun s =>
    match m s with
    | (Ok a, s1, t1) =>
        match f a s1 with
        | (r, s2, t2) => (r, s2, t1 ++ t2)
        end
    | (Raise e, s1, t1) => (Raise e, s1, t1)
    end.

Notation "x <- m ;; k" := (bind m (fun x => k))
  (at level 61, m at next level, right associativity).
Notation "m ;;; k" := (bind m (fun _ => k))
  (at level 61, right associativity).

Definition emit (e : event) : M unit := fun s => (Ok tt, s, [e]).

(** [with self.lock: body]: the lock is released on every way out.  A call
    is followed on its own, so the lock is free when it is asked for. *)
Definition with_lock {A} (body : M A) : M A :=
  fun s =>
    match body s with
    | (r, s1, t) => (r, s1, EvAcquire :: t ++ [EvRelease])
    end.

Definition outcome {A} (m : M A) (s : Stride) : result A := fst (fst (m s)).
Definition exec {A} (m : M A) (s : Stride) : Stride := snd (fst (m s)).
Definition trace {A} (m : M A) (s : Stride) : list event := snd (m s).

(** [seq[i]] for an index that is not negative. *)
Definition getitem {A} (seq : list A) (i : nat) : M A :=
  match nth_error seq i with
  | Some x => ret x
  | None => raise IndexError
  end.

(** [seq[lo:hi]] for bounds that are not negative; out-of-range bounds are
    clamped, as Python does. *)
Definition slice {A} (seq : list A) (lo hi : nat) : list A :=
  firstn (hi - lo) (skipn lo seq).

(** [struct.unpack('>L', buf)]: one unsigned 32-bit integer, most significant
    byte first, as a 1-tuple; [struct.error] unless [buf] has four bytes. *)
Definition struct_unpack_BE_L (buf : list byte) : M (list Z) :=
  if Nat.eqb (length buf) 4
  then ret [fold_left (fun acc b => 256 * acc + byte_val b) buf 0]
  else raise StructError.

(** Python's [print]. *)
Definition print (line : string) : M unit := emit (EvPrint line).

(** ** Attribute access *)

Definition set_stride_count (v : Z) : M unit :=
  fun s =>
    (Ok tt,
     mkStride (_detected_device s) (Some v) (_calories s) (_hw_revision s)
              (_manufacturer_id s) (_model_number s) (_sw_revision s)
              (_serial_number s),
     [EvWrite StrideCount]).

Definition set_calories (v : Z) : M unit :=
  fun s =>
    (Ok tt,
     mkStride (_detected_device s) (_stride_count s) (Some v) (_hw_revision s)
              (_manufacturer_id s) (_model_number s) (_sw_revision s)
              (_serial_number s),
     [EvWrite Calories]).

Definition set_hw_revision (v : Z) : M unit :=
  fun s =>
    (Ok tt,
     mkStride (_detected_device s) (_stride_count s) (_calories s) (Some v)
              (_manufacturer_id s) (_model_number s) (_sw_revision s)
              (_serial_number s),
     [EvWrite HwRevision]).

Definition set_manufacturer_id (v : Z) : M unit :=
  fun s =>
    (Ok tt,
     mkStride (_detected_device s) (_stride_count s) (_calories s)
              (_hw_revision s) (Some v) (_model_number s) (_sw_revision s)
              (_serial_number s),
     [EvWrite ManufacturerId]).

Definition set_model_number (v : Z) : M unit :=
  fun s =>
    (Ok tt,
     mkStride (_detected_device s) (_stride_count s) (_calories s)
              (_hw_revision s) (_manufacturer_id s) (Some v) (_sw_revision s)
              (_serial_number s),
     [EvWrite ModelNumber]).

Definition set_sw_revision (v : Z) : M unit :=
  fun s =>
    (Ok tt,
     mkStride (_detected_device s) (_stride_count s) (_calories s)
              (_hw_revision s) (_manufacturer_id s) (_model_number s) (Some v)
              (_serial_number s),
     [EvWrite SwRevision]).

Definition set_serial_number (v : Z) : M unit :=
  fun s =>
    (Ok tt,
     mkStride (_detected_device s) (_stride_count s) (_calories s)
              (_hw_revision s) (_manufacturer_id s) (_model_number s)
              (_sw_revision s) (Some v),
     [EvWrite SerialNumber]).

(** Reading attribute [f], whose value is [proj self]. *)
Definition read {A} (f : field) (proj : Stride -> A) : M A :=
  fun s => (Ok (proj s), s, [EvRead f]).

(** ** The class *)

(** [Stride.__init__]: every reading starts as [None]; the channel is opened
    through the event handler with the profile's constants.  The event
    handler, the callback and the lock are collaborators: they show only
    through the events. *)
Definition __init__ (device_id transmission_type : Z) : Stride * list event :=
  let self := mkStride None None None None None None None None in
  let CHANNEL_FREQUENCY := 0x39 in
  let CHANNEL_PERIOD := 8134 in
  let DEVICE_TYPE := 0x7c in
  let SEARCH_TIMEOUT := 30 in
  (self,
   [EvOpenChannel CHANNEL_FREQUENCY CHANNEL_PERIOD transmission_type
                  DEVICE_TYPE device_id SEARCH_TIMEOUT]).

(** [Stride._set_data], the handler of one inbound frame ([on_message] in the
    specification). *)
Definition _set_data (data : list byte) : M unit :=
  let data_size := 9%nat in
  let payload_offset := 1%nat in
  if negb (Nat.eqb (length data) data_size) then ret tt
  else
    with_lock (
      let data_page_index := (0 + payload_offset)%nat in
      device_page <- getitem data data_page_index ;;
      if byte_val device_page =? 0x01 then
        let stride_count_index := (6 + payload_offset)%nat in
        v <- getitem data stride_count_index ;;
        set_stride_count (byte_val v)
      else if byte_val device_page =? 0x02 then
        print "page 2, template"%string
      else if byte_val device_page =? 0x03 then
        let calories_index := (6 + payload_offset)%nat in
        v <- getitem data calories_index ;;
        set_calories (byte_val v)
      else if byte_val device_page =? 0x10 then
        print "page 16, Distance & Strides Since Battery Reset"%string
      else if byte_val device_page =? 0x16 then
        print "page 22, capabilities"%string
      else if byte_val device_page =? 0x50 then
        hw <- getitem data (3 + payload_offset)%nat ;;
        set_hw_revision (byte_val hw) ;;;
        lsb <- getitem data (4 + payload_offset)%nat ;;
        msb <- getitem data (5 + payload_offset)%nat ;;
        set_manufacturer_id (256 * byte_val msb + byte_val lsb) ;;;
        lsb <- getitem data (6 + payload_offset)%nat ;;
        msb <- getitem data (7 + payload_offset)%nat ;;
        set_model_number (256 * byte_val msb + byte_val lsb)
      else if byte_val device_page =? 0x51 then
        sw <- getitem data (3 + payload_offset)%nat ;;
        set_sw_revision (byte_val sw) ;;;
        fields <- struct_unpack_BE_L
                    (slice data (4 + payload_offset) (8 + payload_offset)) ;;
        serial <- getitem fields 0%nat ;;
        set_serial_number serial
      else ret tt).

(** The properties. *)

Definition detected_device : M (option (Z * Z)) :=
  read DetectedDevice _detected_device.

Definition stride_count : M (option Z) :=
  let strides := @None Z in
  strides <- with_lock (read StrideCount _stride_count) ;;
  ret strides.

Definition hardware_revision : M (option Z) :=
  let hw_rev := @None Z in
  hw_rev <- with_lock (read HwRevision _hw_revision) ;;
  ret hw_rev.

Definition manufacturer_id : M (option Z) :=
  let manufacturer_id := @None Z in
  manufacturer_id <- with_lock (read ManufacturerId _manufacturer_id) ;;
  ret manufacturer_id.

Definition model_number : M (option Z) :=
  let model_number := @None Z in
  model_number <- with_lock (read ModelNumber _model_number) ;;
  ret model_number.

Definition software_revision : M (option Z) :=
  let sw_rev := @None Z in
  sw_rev <- with_lock (read SwRevision _sw_revision) ;;
  ret sw_rev.

Definition serial_number : M (option Z) :=
  let serial := @None Z in
  serial <- with_lock (read SerialNumber _serial_number) ;;
  ret serial.

(** ** Runs, frames and lock discipline *)

(** The object after a series of inbound frames, handled in order. *)
Definition on_messages (frames : list (list byte)) (s : Stride) : Stride :=
  fold_left (fun self data => exec (_set_data data) self) frames s.

(** Byte [i] of a frame as an integer, when the frame is that long. *)
Definition frame_byte (data : list byte) (i : nat) : option Z :=
  option_map byte_val (nth_error data i).

(** The four bytes of an unsigned 32-bit value, most significant first. *)
Definition big_endian_u32 (V : Z) : list byte :=
  [byte_of_Z (V / 2 ^ 24); byte_of_Z (V / 2 ^ 16); byte_of_Z (V / 2 ^ 8);
   byte_of_Z V].

(** A trace keeps the lock discipline when the lock is taken and given back
    in turn, is free at the end, and every attribute read or write happens
    while it is held.  [held] tells whether the lock is held at the start. *)
Fixpoint guarded (held : bool) (t : list event) : bool :=
  match t with
  | [] => negb held
  | EvAcquire :: t' => negb held && guarded true t'
  | EvRelease :: t' => held && guarded false t'
  | EvRead _ :: t' => held && guarded held t'
  | EvWrite _ :: t' => held && guarded held t'
  | _ :: t' => guarded held t'
  end.

(** A method that takes the lock, copies attribute [f] out, gives the lock
    back and returns the copy. *)
Definition copies_out {A} (f : field) (proj : Stride -> A) (m : M A) : Prop :=
  forall s, m s = (Ok (proj s), s, [EvAcquire; EvRead f; EvRelease]).

(** Calls to the registered callback. *)
Definition is_callback (e : event) : bool :=
  match e with
  | EvDeviceFound _ _ | EvStrideData _ _ => true
  | _ => false
  end.

(** Every reading known in [s] is still known in [s']. *)
Definition keeps_readings (s s' : Stride) : Prop :=
  (_stride_count s <> None -> _stride_count s' <> None) /\
  (_calories s <> None -> _calories s' <> None) /\
  (_hw_revision s <> None -> _hw_revision s' <> None) /\
  (_manufacturer_id s <> None -> _manufacturer_id s' <> None) /\
  (_model_number s <> None -> _model_number s' <> None) /\
  (_sw_revision s <> None -> _sw_revision s' <> None) /\
  (_serial_number s <> None -> _serial_number s' <> None).

(** A nine-byte frame of page [k]. *)
Definition is_page (k : Z) (data : list byte) : Prop :=
  length data = 9%nat /\ frame_byte data 1 = Some k.

(** A frame that can change a reading: nine bytes, and a page with
    assignments in its branch. *)
Definition decoded_page (data : list byte) : bool :=
  Nat.eqb (length data) 9 &&
  match frame_byte data 1 with
  | Some p => (p =? 0x01) || (p =? 0x03) || (p =? 0x50) || (p =? 0x51)
  | None => false
  end.

(** The readings the branch of page [k] assigns. *)
Definition readings_of_page (k : Z) (s : Stride) : list (option Z) :=
  if k =? 0x01 then [_stride_count s]
  else if k =? 0x03 then [_calories s]
  else if k =? 0x50 then [_hw_revision s; _manufacturer_id s; _model_number s]
  else if k =? 0x51 then [_sw_revision s; _serial_number s]
  else [].

(** A reading that is known fits in [bits] bits. *)
Definition in_width (bits : Z) (o : option Z) : Prop :=
  match o with
  | Some v => 0 <= v < 2 ^ bits
  | None => True
  end.

(** Every known reading fits the width of the bytes it is decoded from. *)
Definition readings_in_range (s : Stride) : Prop :=
  in_width 8 (_stride_count s) /\ in_width 8 (_calories s) /\
  in_width 8 (_hw_revision s) /\ in_width 16 (_manufacturer_id s) /\
  in_width 16 (_model_number s) /\ in_width 8 (_sw_revision s) /\
  in_width 32 (_serial_number s).

(** Running a method body without touching the arithmetic on byte values. *)
Ltac run := cbv -[Z.mul Z.add Z.eqb byte_val].

(** Case analysis on the page number, in the order of the [elif] chain. *)
Ltac page_cases :=
  repeat match goal with
         | |- context [Z.eqb ?a ?b] => destruct (Z.eqb_spec a b); run
         end.

(** ** Frames *)

Arguments byte_val : simpl never.

Lemma byte_val_range (b : byte) : 0 <= byte_val b <= 255.
Proof.
  unfold byte_val. pose proof (Byte.to_N_bounded b). lia.
Qed.

Lemma byte_val_of_Z (z : Z) : byte_val (byte_of_Z z) = z mod 256.
Proof.
  unfold byte_val, byte_of_Z.
  pose proof (Z.mod_pos_bound z 256 ltac:(lia)) as Hz.
  destruct (Byte.of_N (Z.to_N (z mod 256))) as [b|] eqn:E.
  - apply Byte.to_of_N in E. rewrite E. lia.
  - apply Byte.of_N_None_iff in E. lia.
Qed.

(** A sequence of nine bytes is a channel number, a page number and seven
    more payload bytes. *)
Lemma frame_inv (data : list byte) :
  length data = 9%nat ->
  exists c p d1 d2 d3 d4 d5 d6 d7, data = [c; p; d1; d2; d3; d4; d5; d6; d7].
Proof.
  intros H.
  do 9 (destruct data as [|? data]; [discriminate H|]).
  destruct data; [|discriminate H].
  repeat eexists.
Qed.

Lemma set_data_wrong_length (data : list byte) (s : Stride) :
  length data <> 9%nat -> _set_data data s = (Ok tt, s, []).
Proof.
  intros H. unfold _set_data.
  destruct (Nat.eqb_spec (length data) 9) as [E|E]; [contradiction|reflexivity].
Qed.

(** What each property returns. *)
Section Accessors.
Variable s : Stride.

Lemma stride_count_value : outcome stride_count s = Ok (_stride_count s).
Proof. reflexivity. Qed.

Lemma hardware_revision_value :
  outcome hardware_revision s = Ok (_hw_revision s).
Proof. reflexivity. Qed.

Lemma manufacturer_id_value :
  outcome manufacturer_id s = Ok (_manufacturer_id s).
Proof. reflexivity. Qed.

Lemma model_number_value : outcome model_number s = Ok (_model_number s).
Proof. reflexivity. Qed.

Lemma software_revision_value :
  outcome software_revision s = Ok (_sw_revision s).
Proof. reflexivity. Qed.

Lemma serial_number_value : outcome serial_number s = Ok (_serial_number s).
Proof. reflexivity. Qed.

Lemma detected_device_value :
  outcome detected_device s = Ok (_detected_device s).
Proof. reflexivity. Qed.
End Accessors.

(** ** Page 0x01: stride data *)

(** C1. A 9-byte frame with page byte 0x01 and N in frame byte 7 makes the
    [stride_count] property return N; calories, hardware revision,
    manufacturer id, model number, software revision, serial number and the
    detected device keep their values.  N is a byte value, so it lies in
    0..255. *)
Theorem stride_page_sets_stride_count
    (s : Stride) (data : list byte) (N : Z) :
  length data = 9%nat ->
  frame_byte data 1 = Some 0x01 ->
  frame_byte data 7 = Some N ->
  let s' := exec (_set_data data) s in
  outcome stride_count s' = Ok (Some N) /\
  _calories s' = _calories s /\
  _hw_revision s' = _hw_revision s /\
  _manufacturer_id s' = _manufacturer_id s /\
  _model_number s' = _model_number s /\
  _sw_revision s' = _sw_revision s /\
  _serial_number s' = _serial_number s /\
  _detected_device s' = _detected_device s.
Proof.
  intros Hlen Hpage HN.
  destruct (frame_inv data Hlen)
    as (c & p & d1 & d2 & d3 & d4 & d5 & d6 & d7 & ->).
  cbv [frame_byte nth_error option_map] in Hpage, HN.
  injection Hpage as Hpage. injection HN as <-.
  run. rewrite Hpage. run.
  repeat split.
Qed.

Lemma stride_page_sets_stride_count_witness :
  outcome stride_count
    (exec (_set_data [x00; x01; x00; x00; x00; x00; x00; x2a; x00])
          (fst (__init__ 0 0))) = Ok (Some 42).
Proof.
  apply (stride_page_sets_stride_count (fst (__init__ 0 0))
           [x00; x01; x00; x00; x00; x00; x00; x2a; x00] 42);
    reflexivity.
Defined.

(** ** Page 0x50: manufacturer information *)

(** C2. A 9-byte frame with page byte 0x50 and payload bytes [3]=HR,
    [4]=lsb_m, [5]=msb_m, [6]=lsb_d, [7]=msb_d (frame bytes 4 to 8) makes
    [hardware_revision] return HR, [manufacturer_id] return
    msb_m*256+lsb_m and [model_number] return msb_d*256+lsb_d. *)
Theorem manufacturer_page_decodes
    (s : Stride) (data : list byte) (HR lsb_m msb_m lsb_d msb_d : Z) :
  length data = 9%nat ->
  frame_byte data 1 = Some 0x50 ->
  frame_byte data 4 = Some HR ->
  frame_byte data 5 = Some lsb_m ->
  frame_byte data 6 = Some msb_m ->
  frame_byte data 7 = Some lsb_d ->
  frame_byte data 8 = Some msb_d ->
  let s' := exec (_set_data data) s in
  outcome hardware_revision s' = Ok (Some HR) /\
  outcome manufacturer_id s' = Ok (Some (msb_m * 256 + lsb_m)) /\
  outcome model_number s' = Ok (Some (msb_d * 256 + lsb_d)).
Proof.
  intros Hlen Hpage H4 H5 H6 H7 H8.
  destruct (frame_inv data Hlen)
    as (c & p & d1 & d2 & d3 & d4 & d5 & d6 & d7 & ->).
  cbv [frame_byte nth_error option_map] in Hpage, H4, H5, H6, H7, H8.
  injection Hpage as Hpage.
  injection H4 as <-. injection H5 as <-. injection H6 as <-.
  injection H7 as <-. injection H8 as <-.
  run. page_cases; try lia.
  repeat split; do 2 f_equal; lia.
Qed.

Lemma manufacturer_page_decodes_witness :
  let s' := exec (_set_data [x00; x50; xff; xff; x03; x02; x01; x39; x30])
                 (fst (__init__ 0 0)) in
  outcome hardware_revision s' = Ok (Some 3) /\
  outcome manufacturer_id s' = Ok (Some (1 * 256 + 2)) /\
  outcome model_number s' = Ok (Some (48 * 256 + 57)).
Proof.
  apply (manufacturer_page_decodes (fst (__init__ 0 0))
           [x00; x50; xff; xff; x03; x02; x01; x39; x30] 3 2 1 57 48);
    reflexivity.
Defined.

(** ** Page 0x51: product information *)

(** Four bytes read most significant first give back the value they encode. *)
Lemma big_endian_u32_value (V : Z) :
  0 <= V < 2 ^ 32 ->
  fold_left (fun acc b => 256 * acc + byte_val b) (big_endian_u32 V) 0 = V.
Proof.
  intros HV. unfold big_endian_u32. cbv [fold_left].
  rewrite !byte_val_of_Z.
  change (2 ^ 24) with 16777216. change (2 ^ 16) with 65536.
  change (2 ^ 8) with 256. change (2 ^ 32) with 4294967296 in HV.
  Z.div_mod_to_equations. lia.
Qed.

(** C3. A 9-byte frame with page byte 0x51, payload byte [3]=SR (frame byte
    4) and payload bytes [4..7] (frame bytes 5 to 8) holding V as a
    big-endian unsigned 32-bit integer makes [software_revision] return SR
    and [serial_number] return V. *)
Theorem product_page_decodes (s : Stride) (data : list byte) (SR V : Z) :
  length data = 9%nat ->
  frame_byte data 1 = Some 0x51 ->
  frame_byte data 4 = Some SR ->
  0 <= V < 2 ^ 32 ->
  slice data 5 9 = big_endian_u32 V ->
  let s' := exec (_set_data data) s in
  outcome software_revision s' = Ok (Some SR) /\
  outcome serial_number s' = Ok (Some V).
Proof.
  intros Hlen Hpage H4 HV Hbytes.
  destruct (frame_inv data Hlen)
    as (c & p & d1 & d2 & d3 & d4 & d5 & d6 & d7 & ->).
  cbv [frame_byte nth_error option_map] in Hpage, H4.
  injection Hpage as Hpage. injection H4 as <-.
  pose proof (big_endian_u32_value V HV) as Hval.
  rewrite <- Hbytes in Hval.
  cbv [slice Nat.sub skipn firstn fold_left] in Hval.
  run. page_cases; try lia.
  split; [reflexivity|].
  do 2 f_equal. exact Hval.
Qed.

Lemma product_page_decodes_witness :
  let s' := exec (_set_data [x00; x51; xff; xff; x07; x01; x02; x03; x04])
                 (fst (__init__ 0 0)) in
  outcome software_revision s' = Ok (Some 7) /\
  outcome serial_number s' = Ok (Some 16909060).
Proof.
  apply (product_page_decodes (fst (__init__ 0 0))
           [x00; x51; xff; xff; x07; x01; x02; x03; x04] 7 16909060);
    try reflexivity.
  lia.
Defined.

(** ** Frames that change nothing *)

(** C4. A byte sequence whose length is not 9 changes no attribute of the
    object (the object afterwards is the object before) and the call
    returns normally, whatever the bytes are. *)
Theorem wrong_length_ignored (s : Stride) (data : list byte) :
  length data <> 9%nat ->
  exec (_set_data data) s = s /\ outcome (_set_data data) s = Ok tt.
Proof.
  intros H. unfold exec, outcome.
  rewrite (set_data_wrong_length data s H). split; reflexivity.
Qed.

Lemma wrong_length_ignored_witness :
  let s := exec (_set_data [x00; x01; x00; x00; x00; x00; x00; x05; x00])
                (fst (__init__ 0 0)) in
  let data := [x00; x01; x00; x00; x00; x00; x00; x09] in
  exec (_set_data data) s = s /\ outcome (_set_data data) s = Ok tt.
Proof.
  apply wrong_length_ignored. cbv [length]. lia.
Defined.

(** C5. For every byte sequence, of any length and content, the call
    returns normally: no index is out of range and the buffer handed to
    [struct.unpack] has four bytes. *)
Theorem set_data_never_raises (s : Stride) (data : list byte) :
  outcome (_set_data data) s = Ok tt.
Proof.
  destruct (Nat.eq_dec (length data) 9) as [Hlen|Hlen].
  - destruct (frame_inv data Hlen)
      as (c & p & d1 & d2 & d3 & d4 & d5 & d6 & d7 & ->).
    run. page_cases; reflexivity.
  - apply wrong_length_ignored, Hlen.
Qed.

(** C6. A 9-byte frame whose page byte is none of 0x01, 0x03, 0x50, 0x51
    (the printed pages 0x02, 0x10, 0x16 and every unknown page alike)
    leaves every attribute as it was and returns normally. *)
Theorem other_pages_change_nothing (s : Stride) (data : list byte) (page : Z) :
  length data = 9%nat ->
  frame_byte data 1 = Some page ->
  page <> 0x01 -> page <> 0x03 -> page <> 0x50 -> page <> 0x51 ->
  exec (_set_data data) s = s /\ outcome (_set_data data) s = Ok tt.
Proof.
  intros Hlen Hpage H1 H3 H50 H51.
  destruct (frame_inv data Hlen)
    as (c & p & d1 & d2 & d3 & d4 & d5 & d6 & d7 & ->).
  cbv [frame_byte nth_error option_map] in Hpage.
  injection Hpage as <-.
  run. page_cases; try contradiction; split; reflexivity.
Qed.

Lemma other_pages_change_nothing_witness :
  let s := exec (_set_data [x00; x50; xff; xff; x03; x02; x01; x39; x30])
                (fst (__init__ 0 0)) in
  let data := [x00; xff; x01; x02; x03; x04; x05; x06; x07] in
  exec (_set_data data) s = s /\ outcome (_set_data data) s = Ok tt.
Proof.
  apply (other_pages_change_nothing _ _ 255); try reflexivity; lia.
Defined.

(** The printed pages are among them. *)
Example template_page_changes_nothing :
  let s := exec (_set_data [x00; x51; xff; xff; x07; x01; x02; x03; x04])
                (fst (__init__ 0 0)) in
  forall page, In page [x02; x10; x16] ->
  exec (_set_data [x00; page; x01; x02; x03; x04; x05; x06; x07]) s = s.
Proof.
  intros s page [<-|[<-|[<-|[]]]]; reflexivity.
Qed.

(** ** Replaying a frame *)

(** C7. Handling the same frame twice in a row leaves the object exactly as
    handling it once: every attribute is assigned from the frame alone. *)
Theorem set_data_idempotent (s : Stride) (F : list byte) :
  exec (_set_data F) (exec (_set_data F) s) = exec (_set_data F) s.
Proof.
  destruct (Nat.eq_dec (length F) 9) as [Hlen|Hlen].
  - destruct (frame_inv F Hlen)
      as (c & p & d1 & d2 & d3 & d4 & d5 & d6 & d7 & ->).
    run. page_cases; reflexivity.
  - unfold exec. rewrite !(set_data_wrong_length F _ Hlen). reflexivity.
Qed.

Example stride_count_not_doubled :
  let F := [x00; x01; x00; x00; x00; x00; x00; x05; x00] in
  outcome stride_count (on_messages [F; F] (fst (__init__ 0 0)))
  = Ok (Some 5).
Proof. reflexivity. Qed.

(** ** Readings are never forgotten *)

Lemma keeps_readings_refl (s : Stride) : keeps_readings s s.
Proof. unfold keeps_readings. tauto. Qed.

Lemma keeps_readings_trans (s1 s2 s3 : Stride) :
  keeps_readings s1 s2 -> keeps_readings s2 s3 -> keeps_readings s1 s3.
Proof. unfold keeps_readings. tauto. Qed.

Lemma set_data_keeps_readings (s : Stride) (data : list byte) :
  keeps_readings s (exec (_set_data data) s).
Proof.
  destruct (Nat.eq_dec (length data) 9) as [Hlen|Hlen].
  - destruct (frame_inv data Hlen)
      as (c & p & d1 & d2 & d3 & d4 & d5 & d6 & d7 & ->).
    unfold keeps_readings. run.
    page_cases; repeat split; solve [trivial | discriminate].
  - unfold exec. rewrite (set_data_wrong_length data s Hlen).
    apply keeps_readings_refl.
Qed.

Lemma on_messages_keeps_readings (frames : list (list byte)) :
  forall s, keeps_readings s (on_messages frames s).
Proof.
  unfold on_messages.
  induction frames as [|data frames IH]; intros s; simpl.
  - apply keeps_readings_refl.
  - eapply keeps_readings_trans; [apply set_data_keeps_readings | apply IH].
Qed.

(** C8. At construction every reading (stride count, calories, hardware
    revision, manufacturer id, model number, software revision, serial
    number) is [None]; and a reading that is set stays set through any
    further series of frames. *)
Theorem readings_set_once
    (device_id transmission_type : Z) (s : Stride)
    (frames : list (list byte)) :
  (let s0 := fst (__init__ device_id transmission_type) in
   _stride_count s0 = None /\ _calories s0 = None /\
   _hw_revision s0 = None /\ _manufacturer_id s0 = None /\
   _model_number s0 = None /\ _sw_revision s0 = None /\
   _serial_number s0 = None) /\
  (_stride_count s <> None -> _stride_count (on_messages frames s) <> None) /\
  (_calories s <> None -> _calories (on_messages frames s) <> None) /\
  (_hw_revision s <> None -> _hw_revision (on_messages frames s) <> None) /\
  (_manufacturer_id s <> None ->
   _manufacturer_id (on_messages frames s) <> None) /\
  (_model_number s <> None -> _model_number (on_messages frames s) <> None) /\
  (_sw_revision s <> None -> _sw_revision (on_messages frames s) <> None) /\
  (_serial_number s <> None -> _serial_number (on_messages frames s) <> None).
Proof.
  split.
  - cbv. repeat split.
  - exact (on_messages_keeps_readings frames s).
Qed.

Lemma readings_set_once_witness :
  let s := exec (_set_data [x00; x01; x00; x00; x00; x00; x00; x05; x00])
                (fst (__init__ 0 0)) in
  let frames := [[x00; x03; x00; x00; x00; x00; x00; x09; x00];
                 [x00; xff; x00];
                 [x00; x50; xff; xff; x03; x02; x01; x39; x30]] in
  _stride_count s <> None /\ _stride_count (on_messages frames s) <> None.
Proof.
  intros s frames.
  assert (H : _stride_count s <> None) by discriminate.
  split; [exact H|].
  exact (proj1 (proj2 (readings_set_once 0 0 s frames)) H).
Defined.

(** ** Locking in the properties *)

Lemma copies_out_guarded {A} (f : field) (proj : Stride -> A) (m : M A) :
  copies_out f proj m -> forall s, guarded false (trace m s) = true.
Proof.
  intros H s. unfold trace. rewrite (H s). reflexivity.
Qed.

(** C9, as stated, fails: [detected_device] returns its attribute without
    taking the lock, on the freshly constructed object as on any other. *)
Lemma detected_device_reads_without_lock :
  let s := fst (__init__ 0 0) in
  detected_device s = (Ok (_detected_device s), s, [EvRead DetectedDevice]) /\
  guarded false (trace detected_device s) = false /\
  ~ copies_out DetectedDevice _detected_device detected_device.
Proof.
  intros s. split; [reflexivity|]. split; [reflexivity|].
  intros H. specialize (H s). discriminate H.
Qed.

(** C9, amended. Each of [stride_count], [hardware_revision],
    [manufacturer_id], [model_number], [software_revision] and
    [serial_number] takes the lock, copies its attribute, gives the lock
    back and returns the copy, reading nothing outside the lock;
    [detected_device] returns its attribute without the lock. *)
Theorem reading_properties_lock :
  copies_out StrideCount _stride_count stride_count /\
  copies_out HwRevision _hw_revision hardware_revision /\
  copies_out ManufacturerId _manufacturer_id manufacturer_id /\
  copies_out ModelNumber _model_number model_number /\
  copies_out SwRevision _sw_revision software_revision /\
  copies_out SerialNumber _serial_number serial_number /\
  (forall s,
     detected_device s
     = (Ok (_detected_device s), s, [EvRead DetectedDevice])).
Proof.
  repeat split.
Qed.

(** The handler itself keeps the discipline. *)
Lemma set_data_guarded (s : Stride) (data : list byte) :
  guarded false (trace (_set_data data) s) = true.
Proof.
  destruct (Nat.eq_dec (length data) 9) as [Hlen|Hlen].
  - destruct (frame_inv data Hlen)
      as (c & p & d1 & d2 & d3 & d4 & d5 & d6 & d7 & ->).
    run. page_cases; reflexivity.
  - unfold trace. rewrite (set_data_wrong_length data s Hlen). reflexivity.
Qed.

(** ** The callback *)

(** C10. Whatever the bytes, the handler makes no call to the registered
    callback, neither [device_found] nor [stride_data], and leaves the
    detected device as it was; in particular no [stride_data(num_steps,
    distance_m)] call appears in its trace. *)
Theorem set_data_never_calls_back (s : Stride) (data : list byte) :
  forallb (fun e => negb (is_callback e)) (trace (_set_data data) s) = true /\
  _detected_device (exec (_set_data data) s) = _detected_device s /\
  (forall num_steps distance_m,
     ~ In (EvStrideData num_steps distance_m) (trace (_set_data data) s)).
Proof.
  destruct (Nat.eq_dec (length data) 9) as [Hlen|Hlen].
  - destruct (frame_inv data Hlen)
      as (c & p & d1 & d2 & d3 & d4 & d5 & d6 & d7 & ->).
    run.
    page_cases; (split; [reflexivity|]); (split; [reflexivity|]);
      intros steps dist H; repeat (destruct H as [H|H]; [discriminate H|]);
      exact H.
  - unfold trace, exec. rewrite (set_data_wrong_length data s Hlen).
    repeat split. intros steps dist [].
Qed.

Example stride_frame_trace :
  trace (_set_data [x00; x01; x00; x00; x00; x00; x00; x05; x00])
        (fst (__init__ 0 0))
  = [EvAcquire; EvWrite StrideCount; EvRelease].
Proof. reflexivity. Qed.

(** ** Page 0x03: calories *)

(** X1. A 9-byte frame with page byte 0x03 and N in frame byte 7 stores N
    as the calories reading and leaves every other attribute as it was. *)
Theorem calories_page_sets_calories (s : Stride) (data : list byte) (N : Z) :
  length data = 9%nat ->
  frame_byte data 1 = Some 0x03 ->
  frame_byte data 7 = Some N ->
  let s' := exec (_set_data data) s in
  _calories s' = Some N /\
  _stride_count s' = _stride_count s /\
  _hw_revision s' = _hw_revision s /\
  _manufacturer_id s' = _manufacturer_id s /\
  _model_number s' = _model_number s /\
  _sw_revision s' = _sw_revision s /\
  _serial_number s' = _serial_number s /\
  _detected_device s' = _detected_device s.
Proof.
  intros Hlen Hpage HN.
  destruct (frame_inv data Hlen)
    as (c & p & d1 & d2 & d3 & d4 & d5 & d6 & d7 & ->).
  cbv [frame_byte nth_error option_map] in Hpage, HN.
  injection Hpage as Hpage. injection HN as <-.
  run. page_cases; try lia.
  repeat split.
Qed.

Lemma calories_page_sets_calories_witness :
  _calories (exec (_set_data [x00; x03; x00; x00; x00; x00; x00; x63; x00])
                  (fst (__init__ 0 0))) = Some 99.
Proof.
  apply (calories_page_sets_calories (fst (__init__ 0 0))
           [x00; x03; x00; x00; x00; x00; x00; x63; x00] 99);
    reflexivity.
Defined.

(** ** What the identity pages leave alone *)

(** X2. A 9-byte frame with page byte 0x50 changes only the hardware
    revision, the manufacturer id and the model number. *)
Theorem manufacturer_page_frame (s : Stride) (data : list byte) :
  is_page 0x50 data ->
  let s' := exec (_set_data data) s in
  _stride_count s' = _stride_count s /\
  _calories s' = _calories s /\
  _sw_revision s' = _sw_revision s /\
  _serial_number s' = _serial_number s /\
  _detected_device s' = _detected_device s.
Proof.
  intros [Hlen Hpage].
  destruct (frame_inv data Hlen)
    as (c & p & d1 & d2 & d3 & d4 & d5 & d6 & d7 & ->).
  cbv [frame_byte nth_error option_map] in Hpage.
  injection Hpage as Hpage.
  run. page_cases; try lia.
  repeat split.
Qed.

(** X3. A 9-byte frame with page byte 0x51 changes only the software
    revision and the serial number. *)
Theorem product_page_frame (s : Stride) (data : list byte) :
  is_page 0x51 data ->
  let s' := exec (_set_data data) s in
  _stride_count s' = _stride_count s /\
  _calories s' = _calories s /\
  _hw_revision s' = _hw_revision s /\
  _manufacturer_id s' = _manufacturer_id s /\
  _model_number s' = _model_number s /\
  _detected_device s' = _detected_device s.
Proof.
  intros [Hlen Hpage].
  destruct (frame_inv data Hlen)
    as (c & p & d1 & d2 & d3 & d4 & d5 & d6 & d7 & ->).
  cbv [frame_byte nth_error option_map] in Hpage.
  injection Hpage as Hpage.
  run. page_cases; try lia.
  repeat split.
Qed.

Lemma manufacturer_page_frame_witness :
  let s := exec (_set_data [x00; x01; x00; x00; x00; x00; x00; x05; x00])
                (fst (__init__ 0 0)) in
  _stride_count
    (exec (_set_data [x00; x50; xff; xff; x03; x02; x01; x39; x30]) s)
  = _stride_count s.
Proof.
  intros s.
  apply (manufacturer_page_frame s
           [x00; x50; xff; xff; x03; x02; x01; x39; x30]).
  split; reflexivity.
Defined.

Lemma product_page_frame_witness :
  let s := exec (_set_data [x00; x50; xff; xff; x03; x02; x01; x39; x30])
                (fst (__init__ 0 0)) in
  _stride_count
    (exec (_set_data [x00; x51; xff; xff; x07; x01; x02; x03; x04]) s)
  = _stride_count s.
Proof.
  intros s.
  apply (product_page_frame s
           [x00; x51; xff; xff; x07; x01; x02; x03; x04]).
  split; reflexivity.
Defined.

(** ** Decoding loses nothing *)

Lemma byte_of_Z_unique (z : Z) (b : byte) :
  z mod 256 = byte_val b -> byte_of_Z z = b.
Proof.
  intros H. unfold byte_of_Z. rewrite H. unfold byte_val.
  rewrite N2Z.id, Byte.of_to_N. reflexivity.
Qed.

(** Four bytes read most significant first: the value fits in 32 bits and
    gives the bytes back. *)
Lemma unpack_u32_inv (a b c d : byte) :
  let V := fold_left (fun acc x => 256 * acc + byte_val x) [a; b; c; d] 0 in
  0 <= V < 2 ^ 32 /\ big_endian_u32 V = [a; b; c; d].
Proof.
  intros V. cbv [fold_left] in V.
  pose proof (byte_val_range a) as Ha. pose proof (byte_val_range b) as Hb.
  pose proof (byte_val_range c) as Hc. pose proof (byte_val_range d) as Hd.
  change (2 ^ 32) with 4294967296.
  split; [subst V; lia|].
  unfold big_endian_u32.
  change (2 ^ 24) with 16777216. change (2 ^ 16) with 65536.
  change (2 ^ 8) with 256.
  repeat f_equal; apply byte_of_Z_unique; subst V;
    Z.div_mod_to_equations; lia.
Qed.

(** X4. After a 9-byte frame with page byte 0x51 the serial number is a
    value V below 2^32 whose big-endian bytes are frame bytes 5 to 8: two
    such frames give the same serial number only when those bytes agree. *)
Theorem serial_number_round_trip (s : Stride) (data : list byte) :
  is_page 0x51 data ->
  exists V,
    _serial_number (exec (_set_data data) s) = Some V /\
    0 <= V < 2 ^ 32 /\
    big_endian_u32 V = slice data 5 9.
Proof.
  intros [Hlen Hpage].
  destruct (frame_inv data Hlen)
    as (c & p & d1 & d2 & d3 & d4 & d5 & d6 & d7 & ->).
  cbv [frame_byte nth_error option_map] in Hpage.
  injection Hpage as Hpage.
  destruct (unpack_u32_inv d4 d5 d6 d7) as [Hr Hb].
  eexists. split; [|split; [exact Hr | exact Hb]].
  run. page_cases; try lia. reflexivity.
Qed.

Lemma serial_number_round_trip_witness :
  exists V,
    _serial_number
      (exec (_set_data [x00; x51; xff; xff; x07; xde; xad; xbe; xef])
            (fst (__init__ 0 0))) = Some V /\
    0 <= V < 2 ^ 32 /\
    big_endian_u32 V = [xde; xad; xbe; xef].
Proof.
  apply (serial_number_round_trip (fst (__init__ 0 0))
           [x00; x51; xff; xff; x07; xde; xad; xbe; xef]).
  split; reflexivity.
Defined.

(** X5. After a 9-byte frame with page byte 0x50 the manufacturer id m and
    the model number d are below 2^16, and the frame bytes are recovered
    from them: byte 5 is m mod 256, byte 6 is m / 256, byte 7 is d mod 256
    and byte 8 is d / 256. *)
Theorem manufacturer_page_round_trip (s : Stride) (data : list byte) :
  is_page 0x50 data ->
  exists m d,
    _manufacturer_id (exec (_set_data data) s) = Some m /\
    _model_number (exec (_set_data data) s) = Some d /\
    0 <= m < 2 ^ 16 /\ 0 <= d < 2 ^ 16 /\
    frame_byte data 5 = Some (m mod 256) /\
    frame_byte data 6 = Some (m / 256) /\
    frame_byte data 7 = Some (d mod 256) /\
    frame_byte data 8 = Some (d / 256).
Proof.
  intros [Hlen Hpage].
  destruct (frame_inv data Hlen)
    as (c & p & d1 & d2 & d3 & d4 & d5 & d6 & d7 & ->).
  cbv [frame_byte nth_error option_map] in Hpage |- *.
  injection Hpage as Hpage.
  pose proof (byte_val_range d4) as H4. pose proof (byte_val_range d5) as H5.
  pose proof (byte_val_range d6) as H6. pose proof (byte_val_range d7) as H7.
  exists (256 * byte_val d5 + byte_val d4),
         (256 * byte_val d7 + byte_val d6).
  change (2 ^ 16) with 65536.
  split; [run; page_cases; try lia; reflexivity|].
  split; [run; page_cases; try lia; reflexivity|].
  repeat split; try lia; f_equal; Z.div_mod_to_equations; lia.
Qed.

Lemma manufacturer_page_round_trip_witness :
  exists m d,
    let data := [x00; x50; xff; xff; x03; x02; x01; x39; x30] in
    let s' := exec (_set_data data) (fst (__init__ 0 0)) in
    _manufacturer_id s' = Some m /\
    _model_number s' = Some d /\
    0 <= m < 2 ^ 16 /\ 0 <= d < 2 ^ 16 /\
    frame_byte data 5 = Some (m mod 256) /\
    frame_byte data 6 = Some (m / 256) /\
    frame_byte data 7 = Some (d mod 256) /\
    frame_byte data 8 = Some (d / 256).
Proof.
  apply (manufacturer_page_round_trip (fst (__init__ 0 0))
           [x00; x50; xff; xff; x03; x02; x01; x39; x30]).
  split; reflexivity.
Defined.

(** ** Ranges of the readings *)

(** What one frame can do to each reading: leave it, or assign a value made
    of frame bytes. *)
Lemma set_data_assigns (s : Stride) (data : list byte) :
  let s' := exec (_set_data data) s in
  (_stride_count s' = _stride_count s \/
   exists b, _stride_count s' = Some (byte_val b)) /\
  (_calories s' = _calories s \/
   exists b, _calories s' = Some (byte_val b)) /\
  (_hw_revision s' = _hw_revision s \/
   exists b, _hw_revision s' = Some (byte_val b)) /\
  (_manufacturer_id s' = _manufacturer_id s \/
   exists l m, _manufacturer_id s' = Some (256 * byte_val m + byte_val l)) /\
  (_model_number s' = _model_number s \/
   exists l m, _model_number s' = Some (256 * byte_val m + byte_val l)) /\
  (_sw_revision s' = _sw_revision s \/
   exists b, _sw_revision s' = Some (byte_val b)) /\
  (_serial_number s' = _serial_number s \/
   exists a b c d,
     _serial_number s'
     = Some (fold_left (fun acc x => 256 * acc + byte_val x) [a; b; c; d] 0)).
Proof.
  destruct (Nat.eq_dec (length data) 9) as [Hlen|Hlen].
  - destruct (frame_inv data Hlen)
      as (c & p & d1 & d2 & d3 & d4 & d5 & d6 & d7 & ->).
    run. page_cases; repeat split; eauto 6.
  - unfold exec. rewrite (set_data_wrong_length data s Hlen).
    cbn. tauto.
Qed.

Lemma set_data_in_range (s : Stride) (data : list byte) :
  readings_in_range s -> readings_in_range (exec (_set_data data) s).
Proof.
  unfold readings_in_range.
  intros (H1 & H2 & H3 & H4 & H5 & H6 & H7).
  destruct (set_data_assigns s data)
    as (A1 & A2 & A3 & A4 & A5 & A6 & A7).
  repeat split.
  - destruct A1 as [->|[b ->]]; [exact H1|].
    pose proof (byte_val_range b). cbn. lia.
  - destruct A2 as [->|[b ->]]; [exact H2|].
    pose proof (byte_val_range b). cbn. lia.
  - destruct A3 as [->|[b ->]]; [exact H3|].
    pose proof (byte_val_range b). cbn. lia.
  - destruct A4 as [->|(l & m & ->)]; [exact H4|].
    pose proof (byte_val_range l). pose proof (byte_val_range m).
    unfold in_width. change (2 ^ 16) with 65536. lia.
  - destruct A5 as [->|(l & m & ->)]; [exact H5|].
    pose proof (byte_val_range l). pose proof (byte_val_range m).
    unfold in_width. change (2 ^ 16) with 65536. lia.
  - destruct A6 as [->|[b ->]]; [exact H6|].
    pose proof (byte_val_range b). cbn. lia.
  - destruct A7 as [->|(a & b & c & d & ->)]; [exact H7|].
    exact (proj1 (unpack_u32_inv a b c d)).
Qed.

(** X6. Whatever frames a freshly constructed object has handled, every
    reading it holds fits its width: stride count, calories and the two
    revisions in 8 bits, manufacturer id and model number in 16 bits, the
    serial number in 32 bits. *)
Theorem readings_stay_in_range
    (device_id transmission_type : Z) (frames : list (list byte)) :
  readings_in_range
    (on_messages frames (fst (__init__ device_id transmission_type))).
Proof.
  assert (Hstep : forall fs s,
             readings_in_range s -> readings_in_range (on_messages fs s)).
  { unfold on_messages.
    induction fs as [|data fs IH]; intros s Hs; simpl.
    - exact Hs.
    - apply IH, set_data_in_range, Hs. }
  apply Hstep. cbv. tauto.
Qed.

(** ** Bytes the handler does not read *)

(** X7. The channel number (frame byte 0) and payload bytes 1 and 2 (frame
    bytes 2 and 3) are never read: two frames of equal length that agree on
    byte 1 and from byte 4 on have the same result, effect on the object
    and trace. *)
Theorem unread_bytes (s : Stride) (F G : list byte) :
  length F = length G ->
  nth_error F 1 = nth_error G 1 ->
  skipn 4 F = skipn 4 G ->
  _set_data F s = _set_data G s.
Proof.
  intros Hlen H1 H4.
  destruct (Nat.eq_dec (length F) 9) as [HF|HF].
  - assert (HG : length G = 9%nat) by congruence.
    destruct (frame_inv F HF)
      as (c & p & d1 & d2 & d3 & d4 & d5 & d6 & d7 & ->).
    destruct (frame_inv G HG)
      as (c' & p' & e1 & e2 & e3 & e4 & e5 & e6 & e7 & ->).
    cbv [nth_error skipn] in H1, H4.
    injection H1 as <-.
    injection H4 as <- <- <- <- <-.
    reflexivity.
  - rewrite (set_data_wrong_length F s HF).
    rewrite (set_data_wrong_length G s); [reflexivity | congruence].
Qed.

Lemma unread_bytes_witness :
  let s := fst (__init__ 0 0) in
  _set_data [x00; x50; xff; xff; x03; x02; x01; x39; x30] s
  = _set_data [x07; x50; x00; x11; x03; x02; x01; x39; x30] s.
Proof.
  intros s. apply unread_bytes; reflexivity.
Defined.

(** ** Series of frames *)

(** X8. A 9-byte frame overrides an earlier frame of the same page: handling
    F and then G leaves the object as handling G alone, whenever G has nine
    bytes and F carries the same page byte. *)
Theorem same_page_overrides (s : Stride) (F G : list byte) :
  length G = 9%nat ->
  frame_byte F 1 = frame_byte G 1 ->
  exec (_set_data G) (exec (_set_data F) s) = exec (_set_data G) s.
Proof.
  intros HG Hpage.
  destruct (Nat.eq_dec (length F) 9) as [HF|HF].
  - destruct (frame_inv F HF)
      as (c & p & d1 & d2 & d3 & d4 & d5 & d6 & d7 & ->).
    destruct (frame_inv G HG)
      as (c' & p' & e1 & e2 & e3 & e4 & e5 & e6 & e7 & ->).
    cbv [frame_byte nth_error option_map] in Hpage.
    injection Hpage as Hpage.
    run. rewrite Hpage. page_cases; reflexivity.
  - unfold exec at 2. rewrite (set_data_wrong_length F s HF). reflexivity.
Qed.

Lemma same_page_overrides_witness :
  let s := fst (__init__ 0 0) in
  let F := [x00; x50; xff; xff; x03; x02; x01; x39; x30] in
  let G := [x01; x50; x00; x00; x04; x0f; x00; x2a; x00] in
  exec (_set_data G) (exec (_set_data F) s) = exec (_set_data G) s.
Proof.
  intros s F G. apply same_page_overrides; reflexivity.
Defined.

(** X9. Frames with different page bytes commute: the object after F then G
    is the object after G then F. *)
Theorem different_pages_commute (s : Stride) (F G : list byte) :
  frame_byte F 1 <> frame_byte G 1 ->
  exec (_set_data G) (exec (_set_data F) s)
  = exec (_set_data F) (exec (_set_data G) s).
Proof.
  intros Hpage.
  destruct (Nat.eq_dec (length F) 9) as [HF|HF];
    [|unfold exec at 2 3; rewrite !(set_data_wrong_length F _ HF);
      reflexivity].
  destruct (Nat.eq_dec (length G) 9) as [HG|HG];
    [|unfold exec at 1 4; rewrite !(set_data_wrong_length G _ HG);
      reflexivity].
  destruct (frame_inv F HF)
    as (c & p & d1 & d2 & d3 & d4 & d5 & d6 & d7 & ->).
  destruct (frame_inv G HG)
    as (c' & p' & e1 & e2 & e3 & e4 & e5 & e6 & e7 & ->).
  cbv [frame_byte nth_error option_map] in Hpage.
  assert (Hne : byte_val p <> byte_val p') by congruence.
  run. page_cases; try reflexivity; exfalso; apply Hne; congruence.
Qed.

Lemma different_pages_commute_witness :
  let s := fst (__init__ 0 0) in
  let F := [x00; x50; xff; xff; x03; x02; x01; x39; x30] in
  let G := [x00; x01; x00; x00; x00; x00; x00; x05; x00] in
  exec (_set_data G) (exec (_set_data F) s)
  = exec (_set_data F) (exec (_set_data G) s).
Proof.
  intros s F G. apply different_pages_commute. discriminate.
Defined.

Lemma not_decoded_no_change (s : Stride) (data : list byte) :
  decoded_page data = false -> exec (_set_data data) s = s.
Proof.
  intros H.
  destruct (Nat.eq_dec (length data) 9) as [Hlen|Hlen].
  - destruct (frame_inv data Hlen)
      as (c & p & d1 & d2 & d3 & d4 & d5 & d6 & d7 & ->).
    revert H. run. page_cases; intros H; try discriminate H; reflexivity.
  - unfold exec. rewrite (set_data_wrong_length data s Hlen). reflexivity.
Qed.

(** X10. Frames of the wrong length and frames whose page has no
    assignment can be dropped from a series without changing the object it
    ends in. *)
Theorem undecoded_frames_drop (frames : list (list byte)) (s : Stride) :
  on_messages frames s = on_messages (filter decoded_page frames) s.
Proof.
  unfold on_messages. revert s.
  induction frames as [|data frames IH]; intros s; simpl.
  - reflexivity.
  - destruct (decoded_page data) eqn:E; simpl.
    + apply IH.
    + rewrite (not_decoded_no_change s data E). apply IH.
Qed.

Lemma other_page_keeps (k : Z) (s : Stride) (data : list byte) :
  ~ is_page k data ->
  readings_of_page k (exec (_set_data data) s) = readings_of_page k s.
Proof.
  intros H.
  destruct (Nat.eq_dec (length data) 9) as [Hlen|Hlen].
  - destruct (frame_inv data Hlen)
      as (c & p & d1 & d2 & d3 & d4 & d5 & d6 & d7 & ->).
    assert (Hk : byte_val p <> k).
    { intros E. apply H. split; [reflexivity|].
      cbv [frame_byte nth_error option_map]. f_equal. exact E. }
    unfold readings_of_page.
    destruct (Z.eqb_spec k 1) as [->|_];
      [run; page_cases; try reflexivity; contradiction|].
    destruct (Z.eqb_spec k 3) as [->|_];
      [run; page_cases; try reflexivity; contradiction|].
    destruct (Z.eqb_spec k 80) as [->|_];
      [run; page_cases; try reflexivity; contradiction|].
    destruct (Z.eqb_spec k 81) as [->|_];
      [run; page_cases; try reflexivity; contradiction|].
    reflexivity.
  - unfold exec. rewrite (set_data_wrong_length data s Hlen). reflexivity.
Qed.

(** X11. The readings of a page change only when a 9-byte frame of that
    page arrives: through a series with no such frame they keep their
    values, so on a fresh object they stay [None]. *)
Theorem readings_wait_for_page
    (k : Z) (s : Stride) (frames : list (list byte)) :
  Forall (fun data => ~ is_page k data) frames ->
  readings_of_page k (on_messages frames s) = readings_of_page k s.
Proof.
  unfold on_messages. intros H. revert s.
  induction H as [|data frames Hd _ IH]; intros s; simpl.
  - reflexivity.
  - rewrite IH. apply other_page_keeps, Hd.
Qed.

Lemma readings_wait_for_page_witness :
  let frames := [[x00; x01; x00; x00; x00; x00; x00; x05; x00];
                 [x00; x50; x00];
                 [x00; x51; xff; xff; x07; x01; x02; x03; x04]] in
  readings_of_page 0x50 (on_messages frames (fst (__init__ 0 0)))
  = [None; None; None].
Proof.
  intros frames.
  apply (readings_wait_for_page 0x50 (fst (__init__ 0 0)) frames).
  repeat constructor; intros [Hlen Hpage]; discriminate.
Defined.

(** ** Lock and console *)

(** X12. Every run of the handler keeps the lock discipline: each attribute
    write happens while the lock is held, and the lock is free at the end;
    the lock is taken exactly when the frame has nine bytes. *)
Theorem set_data_lock_discipline (s : Stride) (data : list byte) :
  guarded false (trace (_set_data data) s) = true /\
  (In EvAcquire (trace (_set_data data) s) <-> length data = 9%nat).
Proof.
  split; [apply set_data_guarded|].
  destruct (Nat.eq_dec (length data) 9) as [Hlen|Hlen].
  - split; [intros _; exact Hlen|intros _].
    destruct (frame_inv data Hlen)
      as (c & p & d1 & d2 & d3 & d4 & d5 & d6 & d7 & ->).
    run. page_cases; left; reflexivity.
  - unfold trace. rewrite (set_data_wrong_length data s Hlen).
    split; [intros []|intros E; contradiction].
Qed.

(** X13. The handler prints exactly for the three pages it names and does
    not decode: a line is printed if and only if the frame has nine bytes
    and its page is 0x02, 0x10 or 0x16, and the line is that page's. *)
Theorem set_data_prints (s : Stride) (data : list byte) (line : string) :
  In (EvPrint line) (trace (_set_data data) s) <->
  (is_page 0x02 data /\ line = "page 2, template"%string) \/
  (is_page 0x10 data /\
   line = "page 16, Distance & Strides Since Battery Reset"%string) \/
  (is_page 0x16 data /\ line = "page 22, capabilities"%string).
Proof.
  destruct (Nat.eq_dec (length data) 9) as [Hlen|Hlen].
  - destruct (frame_inv data Hlen)
      as (c & p & d1 & d2 & d3 & d4 & d5 & d6 & d7 & ->).
    unfold is_page. cbv [frame_byte nth_error option_map length].
    split.
    + run.
      page_cases; intros H;
        repeat (destruct H as [H|H]; [try discriminate H|]);
        try contradiction;
        injection H as <-.
      * left. split; [split; [reflexivity | f_equal; assumption]|].
        reflexivity.
      * right; left.
        split; [split; [reflexivity | f_equal; assumption]|].
        reflexivity.
      * right; right.
        split; [split; [reflexivity | f_equal; assumption]|].
        reflexivity.
    + intros [[[_ Hp] ->]|[[[_ Hp] ->]|[[_ Hp] ->]]];
        injection Hp as Hp; run; rewrite Hp; cbv; tauto.
  - unfold trace. rewrite (set_data_wrong_length data s Hlen).
    unfold is_page. split; [intros []|].
    intros [[[E _] _]|[[[E _] _]|[[E _] _]]]; contradiction.
Qed.
